(** * paywhirl.py: the PayWhirl API client

    A shallow embedding of [src/paywhirl.py] (class [PayWhirl]) and the
    properties of its request dispatcher ([_get], [_post]) and of the
    endpoint methods that call it.

    The client talks to the outside world through the [requests] library
    and through [print].  Both are modelled by an explicit world that is
    threaded through every call: the world holds the client object, the
    remote server (what [requests] answers) and a chronological trace of
    the effects performed so far. *)

From Stdlib Require Import ZArith String Ascii List Bool.
From Stdlib Require Import DecimalString DecimalPos DecimalZ.
Import ListNotations.

Set Warnings "-register-all".

Local Open Scope string_scope.
Local Open Scope Z_scope.

(** ** Python values *)

Module Py.

(** The values that travel through the client: request parameters,
    header dictionaries, decoded JSON documents and status codes.  A
    [dict] keeps its insertion order, so it is an association list whose
    keys are kept distinct by [dict_setitem].  A float is carried as its
    binary64 bit pattern; the client never computes with one. *)
Inductive pyobj : Type :=
| PyNone
| PyBool (b : bool)
| PyInt (z : Z)
| PyFloat (bits : Z)
| PyStr (s : string)
| PyList (xs : list pyobj)
| PyDict (items : list (string * pyobj)).

Definition pydict : Type := list (string * pyobj).

(** [params is None] *)
Definition is_None (o : pyobj) : bool :=
  match o with
  | PyNone => true
  | _ => false
  end.

(** [d[k] = v]: overwrite in place when the key is present, append
    otherwise. *)
Fixpoint dict_setitem (d : pydict) (k : string) (v : pyobj) : pydict :=
  match d with
  | [] => [(k, v)]
  | (k', v') :: d' =>
      if String.eqb k' k then (k', v) :: d'
      else (k', v') :: dict_setitem d' k v
  end.

(** [d.get(k)] *)
Fixpoint dict_get (d : pydict) (k : string) : option pyobj :=
  match d with
  | [] => None
  | (k', v') :: d' => if String.eqb k' k then Some v' else dict_get d' k
  end.

(** [k in d] *)
Definition dict_contains (d : pydict) (k : string) : bool :=
  match dict_get d k with
  | Some _ => true
  | None => false
  end.

(** [dict([(k1, v1), ...])] and the display [{k1: v1, ...}]: the items
    are inserted from left to right. *)
Definition dict (items : list (string * pyobj)) : pydict :=
  fold_left (fun d kv => dict_setitem d (fst kv) (snd kv)) items [].

(** [str(n)] for an [int]. *)
Definition str (n : Z) : string := NilZero.string_of_int (Z.to_int n).

(** [str.format(template, arg)] for the templates of this client, whose
    only replacement field is [{0}]: every occurrence of the field is
    replaced by the text of the argument. *)
Fixpoint str_format (template : string) (arg0 : string) : string :=
  match template with
  | EmptyString => EmptyString
  | String c rest =>
      match c, rest with
      | "{"%char, String "0"%char (String "}"%char rest') =>
          arg0 ++ str_format rest' arg0
      | _, _ => String c (str_format rest arg0)
      end
  end.

End Py.
Import Py.

(** ** The [requests] library and the world *)

(** An exception in flight: its class and its message. *)
Record exn : Type := Exn { exn_class : string; exn_msg : string }.

Inductive verb : Type := GET | POST.

(** One call of [requests.get] or [requests.post] as the library receives
    it.  [req_params] is the keyword [params] (the query string);
    [req_data] and [req_json] are the keywords [data] and [json] (the
    request body), [None] when the caller does not pass them.
    [req_stream] is the keyword [stream], [false] when the caller does not
    pass it. *)
Record Request : Type := mkRequest {
  req_method : verb;
  req_url : string;
  req_headers : pydict;
  req_params : pyobj;
  req_data : option pyobj;
  req_json : option pyobj;
  req_stream : bool
}.

(** What the server answers: the status line and what decoding the body
    as JSON gives, a value or the decoder's exception. *)
Record Reply : Type := mkReply {
  reply_status : Z;
  reply_json : exn + pyobj
}.

(** The response object handed to the caller.  [conn] numbers the
    library call that made it, and so the connection that call used. *)
Record Response : Type := mkResponse {
  conn : nat;
  status_code : Z;
  json_result : exn + pyobj
}.

(** [requests.codes['ok']] *)
Definition requests_codes_ok : Z := 200.

(** The client object: the three attributes set by [__init__]. *)
Record PayWhirl : Type := mkPayWhirl {
  _api_key : string;
  _api_secret : string;
  _api_base : string
}.

(** The effects a call performs, in the order of the trace.  [EvSend] is
    one call of [requests.get] or [requests.post], not one message on the
    wire: the library may send more than one while it follows redirects. *)
Inductive event : Type :=
| EvPrint (args : list pyobj)
| EvSend (c : nat) (rq : Request)
| EvJson (c : nat)
| EvClose (c : nat).

(** The world: the client object [self], the remote side and the trace.
    The remote side gives what the [n]-th call of [requests.get] or
    [requests.post] (counted from 0) ends with: the reply that the library
    hands back as the response, which after redirects that the library
    followed is the last one, or the exception that the library raises. *)
Record World : Type := mkWorld {
  self : PayWhirl;
  remote : nat -> Request -> exn + Reply;
  trace : list event
}.

Definition is_send (e : event) : bool :=
  match e with
  | EvSend _ _ => true
  | _ => false
  end.

(** The number of calls of [requests.get] and [requests.post] so far. *)
Definition request_count (t : list event) : nat :=
  length (filter is_send t).

(** The requests handed to [requests.get] and [requests.post] so far,
    oldest first. *)
Fixpoint sent_requests (t : list event) : list Request :=
  match t with
  | [] => []
  | EvSend _ rq :: t' => rq :: sent_requests t'
  | _ :: t' => sent_requests t'
  end.

(** What was written to standard output so far: the argument lists of the
    [print] calls, oldest first. *)
Fixpoint stdout (t : list event) : list (list pyobj) :=
  match t with
  | [] => []
  | EvPrint args :: t' => args :: stdout t'
  | _ :: t' => stdout t'
  end.

(** Whether [close()] was called on the response of library call [c]. *)
Definition released (c : nat) (t : list event) : bool :=
  existsb (fun e => match e with EvClose c' => Nat.eqb c' c | _ => false end) t.

(** Whether the body of the response of library call [c] was decoded. *)
Definition parsed (c : nat) (t : list event) : bool :=
  existsb (fun e => match e with EvJson c' => Nat.eqb c' c | _ => false end) t.

(** Whether library call [c] was made with [stream=True]. *)
Definition streamed (c : nat) (t : list event) : bool :=
  existsb
    (fun e =>
       match e with
       | EvSend c' rq => Nat.eqb c' c && req_stream rq
       | _ => false
       end) t.

(** Whether the connection of library call [c] is still held at the end
    of the trace.  [requests.get] and [requests.post] run the request in a
    session of their own, which they close before they return and also
    when they raise.  Without [stream=True] the library reads the whole
    body inside the call, so the connection does not outlive the call;
    with [stream=True] the response keeps the connection until [close()]
    is called on it. *)
Definition connection_held (c : nat) (t : list event) : bool :=
  streamed c t && negb (released c t).

Definition log (e : event) (w : World) : World :=
  mkWorld (self w) (remote w) (trace w ++ [e]).

(** ** Calls: a state monad with exceptions *)

Inductive outcome (A : Type) : Type :=
| Returned (a : A)
| Raised (e : exn).
Arguments Returned {A} a.
Arguments Raised {A} e.

Definition M (A : Type) : Type := World -> outcome A * World.

Definition ret {A : Type} (a : A) : M A := fun w => (Returned a, w).

Definition raise {A : Type} (e : exn) : M A := fun w => (Raised e, w).

Definition bind {A B : Type} (m : M A) (k : A -> M B) : M B :=
  fun w =>
    match m w with
    | (Returned a, w') => k a w'
    | (Raised e, w') => (Raised e, w')
    end.

Declare Scope py_scope.
Delimit Scope py_scope with py.
Notation "x <- m ;; k" := (bind m (fun x => k))
  (at level 61, m at next level, right associativity) : py_scope.
Notation "m ;; k" := (bind m (fun _ => k))
  (at level 61, right associativity) : py_scope.
Local Open Scope py_scope.

(** [self.attr] *)
Definition getattr {A : Type} (attr : PayWhirl -> A) : M A :=
  fun w => (Returned (attr (self w)), w).

(** [print(a, b, ...)]: the arguments are written on one line. *)
Definition print (args : list pyobj) : M unit :=
  fun w => (Returned tt, log (EvPrint args) w).

(** [requests.request(method, url, headers=, params=)]: one call of the
    library, logged as one [EvSend].  What the remote side ends the call
    with comes back as a response object, or as an exception.  The call
    site passes neither [data], [json] nor [stream]. *)
Definition requests_request (method : verb) (url : string)
    (headers : pydict) (params : pyobj) : M Response :=
  fun w =>
    let c := request_count (trace w) in
    let rq := mkRequest method url headers params None None false in
    let w' := log (EvSend c rq) w in
    match remote w c rq with
    | inl e => (Raised e, w')
    | inr r => (Returned (mkResponse c (reply_status r) (reply_json r)), w')
    end.

Definition requests_get := requests_request GET.
Definition requests_post := requests_request POST.

(** [resp.json()] *)
Definition resp_json (resp : Response) : M pyobj :=
  fun w =>
    let w' := log (EvJson (conn resp)) w in
    match json_result resp with
    | inl e => (Raised e, w')
    | inr v => (Returned v, w')
    end.

(** [resp.close()] *)
Definition resp_close (resp : Response) : M unit :=
  fun w => (Returned tt, log (EvClose (conn resp)) w).

(** ** The client *)

(** [PayWhirl.__init__(api_key, api_secret, api_base)]; [api_base] is
    [None] when the caller leaves it out. *)
Definition __init__ (api_key api_secret : string) (api_base : option string)
    : PayWhirl :=
  let api_base :=
    match api_base with
    | Some b => b
    | None => "https://api.paywhirl.com"
    end in
  mkPayWhirl api_key api_secret api_base.

(** [PayWhirl._post(endpoint, params)]; [params] is [PyNone] when the
    caller leaves it out. *)
Definition _post (endpoint : string) (params : pyobj) : M pyobj :=
  let params := if is_None params then PyDict (dict []) else params in
  api_base <- getattr _api_base ;;
  let url := api_base ++ "/" ++ endpoint in
  api_key <- getattr _api_key ;;
  api_secret <- getattr _api_secret ;;
  let headers :=
    dict [("api_key", PyStr api_key); ("api_secret", PyStr api_secret)] in
  print [PyStr url; PyDict headers] ;;
  resp <- requests_post url headers params ;;
  if status_code resp =? requests_codes_ok then
    ret_ <- resp_json resp ;;
    resp_close resp ;;
    ret ret_
  else
    ret (PyInt (status_code resp)).

(** [PayWhirl._get(endpoint, params)] *)
Definition _get (endpoint : string) (params : pyobj) : M pyobj :=
  let params := if is_None params then PyDict (dict []) else params in
  api_base <- getattr _api_base ;;
  let url := api_base ++ "/" ++ endpoint in
  api_key <- getattr _api_key ;;
  api_secret <- getattr _api_secret ;;
  let headers :=
    dict [("api_key", PyStr api_key); ("api_secret", PyStr api_secret)] in
  print [PyStr url; PyDict headers] ;;
  resp <- requests_get url headers params ;;
  if status_code resp =? requests_codes_ok then
    ret_ <- resp_json resp ;;
    resp_close resp ;;
    ret ret_
  else
    ret (PyInt (status_code resp)).

(** The endpoint methods, in the order of the source.  An argument
    annotated [dict] is a [pydict], one annotated [int] an integer. *)

Definition get_customers (data : pydict) : M pyobj :=
  _get "/customers" (PyDict data).

Definition get_customer (customer_id : Z) : M pyobj :=
  _get (str_format "/customer/{0}" (str customer_id)) PyNone.

Definition create_customer (data : pydict) : M pyobj :=
  _post "/create/customer" (PyDict data).

Definition update_customer (data : pydict) : M pyobj :=
  _post "/update/customer" (PyDict data).

(** [return_list_size] is [None] when the caller leaves it out. *)
Definition get_questions (return_list_size : option Z) : M pyobj :=
  let return_list_size :=
    match return_list_size with
    | Some n => n
    | None => 100
    end in
  let data := dict [("limit", PyInt return_list_size)] in
  _get "/questions" (PyDict data).

Definition update_answer (data : pydict) : M pyobj :=
  _post "/update/answer" (PyDict data).

Definition get_answers (customer_id : Z) : M pyobj :=
  let data := dict [("customer_id", PyInt customer_id)] in
  _get "/answers" (PyDict data).

Definition get_plans (data : pydict) : M pyobj :=
  _get "/plans" (PyDict data).

Definition get_plan (plan_id : Z) : M pyobj :=
  _get (str_format "/plan/{0}" (str plan_id)) PyNone.

Definition create_plan (data : pydict) : M pyobj :=
  _post "/create/plan" (PyDict data).

Definition update_plan (data : pydict) : M pyobj :=
  _post "/update/plan" (PyDict data).

Definition get_subscriptions (customer_id : Z) : M pyobj :=
  _get (str_format "/subscriptions/{0}" (str customer_id)) PyNone.

Definition get_subscription (subscription_id : Z) : M pyobj :=
  _get (str_format "/subscription/{0}" (str subscription_id)) PyNone.

Definition subscribe_customer (data : pydict) : M pyobj :=
  _post "/subscribe/customer" (PyDict data).

Definition update_subscription (subscription_id plan_id : Z)
    (quantity : option Z) : M pyobj :=
  let data := dict [("subscription_id", PyInt subscription_id);
                    ("plan_id", PyInt plan_id)] in
  let data :=
    match quantity with
    | Some q => dict_setitem data "quantity" (PyInt q)
    | None => data
    end in
  _post "/update/subscription" (PyDict data).

Definition unsubscribe_customer (subscription_id : Z) : M pyobj :=
  let data := dict [("subscription_id", PyInt subscription_id)] in
  _post "/unsubscribe/customer" (PyDict data).

Definition get_subscribers (data : pydict) : M pyobj :=
  _get "/subscribers" (PyDict data).

Definition get_invoice (invoice_id : Z) : M pyobj :=
  _get (str_format "/invoice/{0}" (str invoice_id)) PyNone.

Definition get_invoices (customer_id : Z) : M pyobj :=
  _get (str_format "/invoices/{0}" (str customer_id)) PyNone.

Definition get_gateways : M pyobj :=
  _get "/gateways" PyNone.

Definition get_gateway (gateway_id : Z) : M pyobj :=
  _get (str_format "/gateway/{0}" (str gateway_id)) PyNone.

Definition create_charge (data : pydict) : M pyobj :=
  _post "/create/charge" (PyDict data).

Definition get_charge (charge_id : Z) : M pyobj :=
  _get (str_format "/charge/{0}" (str charge_id)) PyNone.

Definition get_cards (customer_id : Z) : M pyobj :=
  _get (str_format "/cards/{0}" (str customer_id)) PyNone.

Definition get_card (card_id : Z) : M pyobj :=
  _get (str_format "/card/{0}" (str card_id)) PyNone.

Definition create_card (data : pydict) : M pyobj :=
  _post "/create/card" (PyDict data).

Definition delete_card (card_id : Z) : M pyobj :=
  let data := dict [("id", PyInt card_id)] in
  _post "/delete/card" (PyDict data).

Definition get_promos : M pyobj :=
  _get "/promo" PyNone.

Definition get_promo (promo_id : Z) : M pyobj :=
  _get (str_format "/promo/{0}" (str promo_id)) PyNone.

Definition create_promo (data : pydict) : M pyobj :=
  _post "/create/promo" (PyDict data).

Definition delete_promo (promo_id : Z) : M pyobj :=
  let data := dict [("id", PyInt promo_id)] in
  _post "/delete/promo" (PyDict data).

Definition get_email_template (template_id : Z) : M pyobj :=
  _get (str_format "/email/{0}" (str template_id)) PyNone.

Definition send_email (data : pydict) : M pyobj :=
  _post "/send-email" (PyDict data).

Definition get_account : M pyobj :=
  _get "/account" PyNone.

Definition get_stats : M pyobj :=
  _get "/stats" PyNone.

Definition get_shipping_rules : M pyobj :=
  _get "/shipping/" PyNone.

Definition get_shipping_rule (shipping_rule_id : Z) : M pyobj :=
  _get (str_format "/shipping/{0}" (str shipping_rule_id)) PyNone.

Definition get_tax_rules : M pyobj :=
  _get "/tax" PyNone.

Definition get_tax_rule (rule_id : Z) : M pyobj :=
  _get (str_format "/tax/{0}" (str rule_id)) PyNone.

Definition get_multi_auth_token (data : pydict) : M pyobj :=
  _post "/multiauth" (PyDict data).

(** One invocation of a public endpoint method, with its arguments. *)
Inductive call : Type :=
| Get_customers (data : pydict)
| Get_customer (customer_id : Z)
| Create_customer (data : pydict)
| Update_customer (data : pydict)
| Get_questions (return_list_size : option Z)
| Update_answer (data : pydict)
| Get_answers (customer_id : Z)
| Get_plans (data : pydict)
| Get_plan (plan_id : Z)
| Create_plan (data : pydict)
| Update_plan (data : pydict)
| Get_subscriptions (customer_id : Z)
| Get_subscription (subscription_id : Z)
| Subscribe_customer (data : pydict)
| Update_subscription (subscription_id plan_id : Z) (quantity : option Z)
| Unsubscribe_customer (subscription_id : Z)
| Get_subscribers (data : pydict)
| Get_invoice (invoice_id : Z)
| Get_invoices (customer_id : Z)
| Get_gateways
| Get_gateway (gateway_id : Z)
| Create_charge (data : pydict)
| Get_charge (charge_id : Z)
| Get_cards (customer_id : Z)
| Get_card (card_id : Z)
| Create_card (data : pydict)
| Delete_card (card_id : Z)
| Get_promos
| Get_promo (promo_id : Z)
| Create_promo (data : pydict)
| Delete_promo (promo_id : Z)
| Get_email_template (template_id : Z)
| Send_email (data : pydict)
| Get_account
| Get_stats
| Get_shipping_rules
| Get_shipping_rule (shipping_rule_id : Z)
| Get_tax_rules
| Get_tax_rule (rule_id : Z)
| Get_multi_auth_token (data : pydict).

(** Running an invocation. *)
Definition invoke (c : call) : M pyobj :=
  match c with
  | Get_customers data => get_customers data
  | Get_customer x => get_customer x
  | Create_customer data => create_customer data
  | Update_customer data => update_customer data
  | Get_questions n => get_questions n
  | Update_answer data => update_answer data
  | Get_answers x => get_answers x
  | Get_plans data => get_plans data
  | Get_plan x => get_plan x
  | Create_plan data => create_plan data
  | Update_plan data => update_plan data
  | Get_subscriptions x => get_subscriptions x
  | Get_subscription x => get_subscription x
  | Subscribe_customer data => subscribe_customer data
  | Update_subscription s p q => update_subscription s p q
  | Unsubscribe_customer x => unsubscribe_customer x
  | Get_subscribers data => get_subscribers data
  | Get_invoice x => get_invoice x
  | Get_invoices x => get_invoices x
  | Get_gateways => get_gateways
  | Get_gateway x => get_gateway x
  | Create_charge data => create_charge data
  | Get_charge x => get_charge x
  | Get_cards x => get_cards x
  | Get_card x => get_card x
  | Create_card data => create_card data
  | Delete_card x => delete_card x
  | Get_promos => get_promos
  | Get_promo x => get_promo x
  | Create_promo data => create_promo data
  | Delete_promo x => delete_promo x
  | Get_email_template x => get_email_template x
  | Send_email data => send_email data
  | Get_account => get_account
  | Get_stats => get_stats
  | Get_shipping_rules => get_shipping_rules
  | Get_shipping_rule x => get_shipping_rule x
  | Get_tax_rules => get_tax_rules
  | Get_tax_rule x => get_tax_rule x
  | Get_multi_auth_token data => get_multi_auth_token data
  end.

(** The dispatcher by verb. *)
Definition dispatch (method : verb) : string -> pyobj -> M pyobj :=
  match method with
  | GET => _get
  | POST => _post
  end.

(** ** What one call does *)

(** The events a call performs when it is started in [w]. *)
Definition new_events {A : Type} (p : M A) (w : World) : list event :=
  skipn (length (trace w)) (trace (snd (p w))).

(** The request a call sends (its first, when it sends any). *)
Definition sent_by {A : Type} (p : M A) (w : World) : option Request :=
  hd_error (sent_requests (new_events p w)).

(** What the remote side answers to the request the call sends. *)
Definition received {A : Type} (p : M A) (w : World) : option (exn + Reply) :=
  option_map (remote w (request_count (trace w))) (sent_by p w).

(** The calls the properties range over: the dispatcher called directly,
    and every public endpoint method. *)
Inductive api_call : M pyobj -> Prop :=
| api_dispatch (method : verb) (endpoint : string) (params : pyobj) :
    api_call (dispatch method endpoint params)
| api_invoke (c : call) :
    api_call (invoke c).

(** The request the dispatcher builds in [w]. *)
Definition the_request (method : verb) (endpoint : string) (params : pyobj)
    (w : World) : Request :=
  mkRequest method
    (_api_base (self w) ++ "/" ++ endpoint)
    [("api_key", PyStr (_api_key (self w)));
     ("api_secret", PyStr (_api_secret (self w)))]
    (if is_None params then PyDict [] else params)
    None None false.

(** What the dispatcher does with the answer to its request on
    connection [c]: its result and the events after the request. *)
Definition after_answer (c : nat) (a : exn + Reply)
    : outcome pyobj * list event :=
  match a with
  | inl e => (Raised e, [])
  | inr r =>
      if reply_status r =? 200 then
        match reply_json r with
        | inl e => (Raised e, [EvJson c])
        | inr v => (Returned v, [EvJson c; EvClose c])
        end
      else (Returned (PyInt (reply_status r)), [])
  end.

(** ** Concrete worlds *)

(** A mocked transport: every request gets the same answer. *)
Definition mock (a : exn + Reply) : nat -> Request -> exn + Reply :=
  fun _ _ => a.

(** A client built with key ["k"], secret ["s"] and the default base URL. *)
Definition client_ks : PayWhirl := __init__ "k" "s" None.

(** HTTP 200 with body [{"a": 1}]. *)
Definition reply_200 : Reply :=
  mkReply 200 (inr (PyDict [("a", PyInt 1)])).

(** HTTP 404 with body [{"error": "not found"}]. *)
Definition reply_404 : Reply :=
  mkReply 404 (inr (PyDict [("error", PyStr "not found")])).

(** HTTP 200 with a body that is not JSON. *)
Definition json_error : exn :=
  Exn "JSONDecodeError" "Expecting value: line 1 column 1 (char 0)".

Definition reply_200_html : Reply :=
  mkReply 200 (inl json_error).

Definition world_200 : World := mkWorld client_ks (mock (inr reply_200)) [].
Definition world_404 : World := mkWorld client_ks (mock (inr reply_404)) [].
Definition world_html : World :=
  mkWorld client_ks (mock (inr reply_200_html)) [].

(** ** Reading an invocation *)

(** The [dict] an invocation hands over as its [data] argument, for the
    methods that take one. *)
Definition call_data (c : call) : option pydict :=
  match c with
  | Get_customers data => Some data
  | Create_customer data => Some data
  | Update_customer data => Some data
  | Update_answer data => Some data
  | Get_plans data => Some data
  | Create_plan data => Some data
  | Update_plan data => Some data
  | Subscribe_customer data => Some data
  | Get_subscribers data => Some data
  | Create_charge data => Some data
  | Create_card data => Some data
  | Create_promo data => Some data
  | Send_email data => Some data
  | Get_multi_auth_token data => Some data
  | _ => None
  end.

(** Two invocations name the same remote resource: the same method and,
    where the method puts an identifier into its path, the same
    identifier.  Arguments that travel as parameters are not compared. *)
Definition same_route (c1 c2 : call) : Prop :=
  match c1, c2 with
  | Get_customers _, Get_customers _ => True
  | Get_customer a, Get_customer b => a = b
  | Create_customer _, Create_customer _ => True
  | Update_customer _, Update_customer _ => True
  | Get_questions _, Get_questions _ => True
  | Update_answer _, Update_answer _ => True
  | Get_answers _, Get_answers _ => True
  | Get_plans _, Get_plans _ => True
  | Get_plan a, Get_plan b => a = b
  | Create_plan _, Create_plan _ => True
  | Update_plan _, Update_plan _ => True
  | Get_subscriptions a, Get_subscriptions b => a = b
  | Get_subscription a, Get_subscription b => a = b
  | Subscribe_customer _, Subscribe_customer _ => True
  | Update_subscription _ _ _, Update_subscription _ _ _ => True
  | Unsubscribe_customer _, Unsubscribe_customer _ => True
  | Get_subscribers _, Get_subscribers _ => True
  | Get_invoice a, Get_invoice b => a = b
  | Get_invoices a, Get_invoices b => a = b
  | Get_gateways, Get_gateways => True
  | Get_gateway a, Get_gateway b => a = b
  | Create_charge _, Create_charge _ => True
  | Get_charge a, Get_charge b => a = b
  | Get_cards a, Get_cards b => a = b
  | Get_card a, Get_card b => a = b
  | Create_card _, Create_card _ => True
  | Delete_card _, Delete_card _ => True
  | Get_promos, Get_promos => True
  | Get_promo a, Get_promo b => a = b
  | Create_promo _, Create_promo _ => True
  | Delete_promo _, Delete_promo _ => True
  | Get_email_template a, Get_email_template b => a = b
  | Send_email _, Send_email _ => True
  | Get_account, Get_account => True
  | Get_stats, Get_stats => True
  | Get_shipping_rules, Get_shipping_rules => True
  | Get_shipping_rule a, Get_shipping_rule b => a = b
  | Get_tax_rules, Get_tax_rules => True
  | Get_tax_rule a, Get_tax_rule b => a = b
  | Get_multi_auth_token _, Get_multi_auth_token _ => True
  | _, _ => False
  end.

(** ** Supporting lemmas *)

Example str_42 : str 42 = "42".
Proof. reflexivity. Qed.

Example str_neg : str (-7) = "-7".
Proof. reflexivity. Qed.

Example str_zero : str 0 = "0".
Proof. reflexivity. Qed.

Example format_customer : str_format "/customer/{0}" (str 42) = "/customer/42".
Proof. reflexivity. Qed.

Example dict_overwrite :
  dict [("a", PyInt 1); ("b", PyInt 2); ("a", PyInt 3)]
  = [("a", PyInt 3); ("b", PyInt 2)].
Proof. reflexivity. Qed.

Lemma request_count_app (t t' : list event) :
  request_count (t ++ t') = (request_count t + request_count t')%nat.
Proof.
  unfold request_count. rewrite filter_app, length_app. reflexivity.
Qed.

Lemma skipn_length_app {A : Type} (l l' : list A) :
  skipn (length l) (l ++ l') = l'.
Proof.
  induction l as [| x l IH]; simpl; [reflexivity | exact IH].
Qed.

Lemma headers_literal (k s : string) :
  dict [("api_key", PyStr k); ("api_secret", PyStr s)]
  = [("api_key", PyStr k); ("api_secret", PyStr s)].
Proof. reflexivity. Qed.

Ltac unfold_dispatcher :=
  unfold dispatch, _get, _post, bind, getattr, print, requests_get,
    requests_post, requests_request, resp_json, resp_close, ret, log,
    the_request, after_answer, requests_codes_ok;
  cbn [self remote trace fst snd conn status_code json_result req_url
       req_headers].

(** The dispatcher, run in any world: it prints, sends, and finishes with
    [after_answer]. *)
Lemma dispatch_run (method : verb) (endpoint : string) (params : pyobj)
    (w : World) :
  dispatch method endpoint params w =
  let c := request_count (trace w) in
  let rq := the_request method endpoint params w in
  (fst (after_answer c (remote w c rq)),
   mkWorld (self w) (remote w)
     (trace w ++ EvPrint [PyStr (req_url rq); PyDict (req_headers rq)]
              :: EvSend c rq :: snd (after_answer c (remote w c rq)))).
Proof.
  destruct method; unfold_dispatcher;
    rewrite request_count_app; cbn [request_count filter is_send length];
    rewrite Nat.add_0_r, headers_literal;
    change (dict []) with (@nil (string * pyobj));
    (destruct (remote w _ _) as [e | r];
     [ rewrite <- app_assoc; reflexivity | ]);
    cbn [status_code conn json_result];
    (destruct (reply_status r =? 200);
     [ | cbn [fst snd]; rewrite <- app_assoc; reflexivity ]);
    destruct (reply_json r); cbn [fst snd trace self remote];
    rewrite <- ?app_assoc; reflexivity.
Qed.

Ltac head_of t :=
  lazymatch t with
  | ?f _ => head_of f
  | _ => t
  end.

(** Unfolds the endpoint method on the left and reads off the verb, the
    path and the parameters it hands to the dispatcher. *)
Ltac as_dispatch :=
  lazymatch goal with
  | |- exists _ _ _, ?lhs = _ =>
      let h := head_of lhs in
      unfold h; cbv beta zeta;
      lazymatch goal with
      | |- exists _ _ _, _get ?e ?p = _ => exists GET, e, p; reflexivity
      | |- exists _ _ _, _post ?e ?p = _ => exists POST, e, p; reflexivity
      end
  end.

(** Every endpoint method is one dispatcher call. *)
Lemma invoke_dispatch (c : call) :
  exists method endpoint params, invoke c = dispatch method endpoint params.
Proof.
  destruct c; cbn [invoke]; as_dispatch.
Qed.

Lemma api_call_dispatch (p : M pyobj) :
  api_call p ->
  exists method endpoint params, p = dispatch method endpoint params.
Proof.
  intros [method endpoint params | c].
  - exists method, endpoint, params. reflexivity.
  - apply invoke_dispatch.
Qed.

Lemma dispatch_new_events (method : verb) (endpoint : string)
    (params : pyobj) (w : World) :
  new_events (dispatch method endpoint params) w =
  let c := request_count (trace w) in
  let rq := the_request method endpoint params w in
  EvPrint [PyStr (req_url rq); PyDict (req_headers rq)]
    :: EvSend c rq :: snd (after_answer c (remote w c rq)).
Proof.
  unfold new_events. rewrite dispatch_run. cbn [snd trace].
  apply skipn_length_app.
Qed.

Lemma dispatch_sent_by (method : verb) (endpoint : string) (params : pyobj)
    (w : World) :
  sent_by (dispatch method endpoint params) w
  = Some (the_request method endpoint params w).
Proof.
  unfold sent_by. rewrite dispatch_new_events. reflexivity.
Qed.

Lemma dispatch_received (method : verb) (endpoint : string) (params : pyobj)
    (w : World) :
  received (dispatch method endpoint params) w
  = Some (remote w (request_count (trace w))
            (the_request method endpoint params w)).
Proof.
  unfold received. rewrite dispatch_sent_by. reflexivity.
Qed.

Lemma dispatch_result (method : verb) (endpoint : string) (params : pyobj)
    (w : World) :
  fst (dispatch method endpoint params w)
  = fst (after_answer (request_count (trace w))
           (remote w (request_count (trace w))
              (the_request method endpoint params w))).
Proof.
  rewrite dispatch_run. reflexivity.
Qed.

(** ** Properties of the dispatcher *)

(** C1.  When the reply to the request of a call (the dispatcher called
    with GET or POST, or any public endpoint method) has status 200, the
    call returns the value decoded from the JSON body, unchanged. *)
Theorem ok_returns_decoded_json
    (p : M pyobj) (w : World) (r : Reply) (v : pyobj) :
  api_call p ->
  received p w = Some (inr r) ->
  reply_status r = 200 ->
  reply_json r = inr v ->
  fst (p w) = Returned v.
Proof.
  intros Hp Hrecv Hstatus Hjson.
  destruct (api_call_dispatch p Hp) as (method & endpoint & params & ->).
  rewrite dispatch_received in Hrecv. injection Hrecv as Hrecv.
  rewrite dispatch_result, Hrecv. cbn [after_answer].
  rewrite Hstatus, Hjson. reflexivity.
Qed.

Lemma ok_returns_decoded_json_witness :
  api_call (invoke (Get_customer 42))
  /\ received (invoke (Get_customer 42)) world_200 = Some (inr reply_200)
  /\ reply_status reply_200 = 200
  /\ reply_json reply_200 = inr (PyDict [("a", PyInt 1)])
  /\ fst (invoke (Get_customer 42) world_200)
     = Returned (PyDict [("a", PyInt 1)]).
Proof.
  assert (Hp : api_call (invoke (Get_customer 42))) by constructor.
  assert (Hr : received (invoke (Get_customer 42)) world_200
               = Some (inr reply_200)) by reflexivity.
  split; [exact Hp |].
  split; [exact Hr |].
  split; [reflexivity |].
  split; [reflexivity |].
  exact (ok_returns_decoded_json _ world_200 reply_200 _ Hp Hr
           eq_refl eq_refl).
Defined.

(** C2.  When the reply has any status other than 200, the call returns
    that status code as an integer: it returns normally, and the body of
    the response is never decoded. *)
Theorem non_ok_returns_status_code
    (p : M pyobj) (w : World) (r : Reply) :
  api_call p ->
  received p w = Some (inr r) ->
  reply_status r <> 200 ->
  fst (p w) = Returned (PyInt (reply_status r))
  /\ forall c, parsed c (new_events p w) = false.
Proof.
  intros Hp Hrecv Hstatus.
  destruct (api_call_dispatch p Hp) as (method & endpoint & params & ->).
  rewrite dispatch_received in Hrecv. injection Hrecv as Hrecv.
  rewrite dispatch_result, dispatch_new_events. cbv zeta.
  rewrite Hrecv. cbn [after_answer].
  apply Z.eqb_neq in Hstatus. rewrite Hstatus.
  split; [reflexivity | intros c; reflexivity].
Qed.

Lemma non_ok_returns_status_code_witness :
  api_call (invoke (Get_customer 42))
  /\ received (invoke (Get_customer 42)) world_404 = Some (inr reply_404)
  /\ reply_status reply_404 <> 200
  /\ fst (invoke (Get_customer 42) world_404) = Returned (PyInt 404)
  /\ parsed 0 (new_events (invoke (Get_customer 42)) world_404) = false.
Proof.
  assert (Hp : api_call (invoke (Get_customer 42))) by constructor.
  assert (Hr : received (invoke (Get_customer 42)) world_404
               = Some (inr reply_404)) by reflexivity.
  assert (Hs : reply_status reply_404 <> 200) by (cbn; discriminate).
  destruct (non_ok_returns_status_code _ world_404 reply_404 Hp Hr Hs)
    as [Hres Hparsed].
  split; [exact Hp |].
  split; [exact Hr |].
  split; [exact Hs |].
  split; [exact Hres | exact (Hparsed 0%nat)].
Defined.

(** C3, as the code has it.  The URL of the request is the base URL, one
    ["/"] and the endpoint path, concatenated as they are: nothing is
    normalised, so a path that itself begins with ["/"] gives a URL with
    two separators after the base. *)
Theorem url_is_base_slash_endpoint
    (method : verb) (endpoint : string) (params : pyobj) (w : World) :
  option_map req_url (sent_by (dispatch method endpoint params) w)
  = Some (_api_base (self w) ++ "/" ++ endpoint)
  /\ forall rest,
       endpoint = "/" ++ rest ->
       option_map req_url (sent_by (dispatch method endpoint params) w)
       = Some (_api_base (self w) ++ "//" ++ rest).
Proof.
  rewrite dispatch_sent_by. cbn [option_map the_request req_url].
  split; [reflexivity |].
  intros rest ->. reflexivity.
Qed.

Lemma url_is_base_slash_endpoint_witness :
  option_map req_url (sent_by (dispatch GET "/customers" PyNone) world_200)
  = Some "https://api.paywhirl.com//customers".
Proof.
  exact (proj2 (url_is_base_slash_endpoint GET "/customers" PyNone world_200)
           "customers" eq_refl).
Defined.

(** C3, as stated, fails: with the default base URL, [get_customer(42)]
    sends its request to a URL with two separators after the host, not to
    ["https://api.paywhirl.com/customer/42"]. *)
Lemma get_customer_url_not_single_separator :
  option_map req_url (sent_by (get_customer 42) world_200)
  = Some "https://api.paywhirl.com//customer/42"
  /\ option_map req_url (sent_by (get_customer 42) world_200)
     <> Some "https://api.paywhirl.com/customer/42".
Proof.
  split; [reflexivity |].
  intros H. discriminate H.
Qed.

(** With the default base URL, a path without a leading separator gives a
    URL with a single one. *)
Example url_customers_without_leading_separator :
  option_map req_url (sent_by (dispatch GET "customers" PyNone) world_200)
  = Some "https://api.paywhirl.com/customers".
Proof. reflexivity. Qed.

(** C4.  On the GET and on the POST path, and so for every endpoint
    method, the headers of the request are exactly [api_key] and
    [api_secret], holding the key and the secret given to [__init__],
    unmodified. *)
Theorem headers_are_the_credentials
    (p : M pyobj) (key secret : string) (base : option string)
    (rem : nat -> Request -> exn + Reply) (t : list event) :
  api_call p ->
  option_map req_headers
    (sent_by p (mkWorld (__init__ key secret base) rem t))
  = Some [("api_key", PyStr key); ("api_secret", PyStr secret)].
Proof.
  intros Hp.
  destruct (api_call_dispatch p Hp) as (method & endpoint & params & ->).
  rewrite dispatch_sent_by. reflexivity.
Qed.

Lemma headers_are_the_credentials_witness :
  api_call (dispatch POST "/create/customer" (PyDict []))
  /\ option_map req_headers
       (sent_by (dispatch POST "/create/customer" (PyDict []))
          (mkWorld (__init__ "k" "s" None) (mock (inr reply_200)) []))
     = Some [("api_key", PyStr "k"); ("api_secret", PyStr "s")].
Proof.
  assert (Hp : api_call (dispatch POST "/create/customer" (PyDict [])))
    by constructor.
  split; [exact Hp |].
  exact (headers_are_the_credentials _ "k" "s" None (mock (inr reply_200)) []
           Hp).
Defined.



(** A response that streams keeps its connection until [close()]: had the
    request been made with [stream=True], a trace without [close()] would
    leave the connection held. *)
Example streamed_response_holds_connection :
  connection_held 0
    [EvSend 0 (mkRequest GET "https://api.paywhirl.com//account"
                 [] (PyDict []) None None true)]
  = true
  /\ connection_held 0
       [EvSend 0 (mkRequest GET "https://api.paywhirl.com//account"
                    [] (PyDict []) None None true);
        EvClose 0]
     = false.
Proof. split; reflexivity. Qed.

(** [close()] itself is called on the response only after a 200 reply
    whose body decoded.  Here the reply is 404: the call returns 404 and
    does not call [close()]. *)
Lemma not_released_on_404 :
  fst (get_customer 42 world_404) = Returned (PyInt 404)
  /\ new_events (get_customer 42) world_404
     = [EvPrint [PyStr "https://api.paywhirl.com//customer/42";
                 PyDict [("api_key", PyStr "k"); ("api_secret", PyStr "s")]];
        EvSend 0 (the_request GET "/customer/42" PyNone world_404)]
  /\ released 0 (new_events (get_customer 42) world_404) = false.
Proof.
  repeat split.
Qed.

(** The same call after a 200 reply with a JSON body does call
    [close()]. *)
Lemma released_on_200 :
  fst (get_customer 42 world_200) = Returned (PyDict [("a", PyInt 1)])
  /\ released 0 (new_events (get_customer 42) world_200) = true.
Proof.
  repeat split.
Qed.

(** After a 200 reply whose body does not decode, the exception leaves the
    call before [close()]. *)
Lemma not_released_on_decode_error :
  fst (get_customer 42 world_html) = Raised json_error
  /\ released 0 (new_events (get_customer 42) world_html) = false.
Proof.
  repeat split.
Qed.

(** In general: [close()] is called exactly when the reply is a 200
    whose body decodes. *)
Lemma released_iff_ok_and_decoded (p : M pyobj) (w : World) (r : Reply) :
  api_call p ->
  received p w = Some (inr r) ->
  released (request_count (trace w)) (new_events p w)
  = (reply_status r =? 200)
    && match reply_json r with inr _ => true | inl _ => false end.
Proof.
  intros Hp Hrecv.
  destruct (api_call_dispatch p Hp) as (method & endpoint & params & ->).
  rewrite dispatch_received in Hrecv. injection Hrecv as Hrecv.
  rewrite dispatch_new_events. cbv zeta. rewrite Hrecv.
  cbn [after_answer].
  destruct (reply_status r =? 200); [| reflexivity].
  destruct (reply_json r); cbn [snd released existsb orb andb];
    [reflexivity |].
  rewrite Nat.eqb_refl. reflexivity.
Qed.

(** C6.  Every call, on the GET and on the POST path and so for every
    endpoint method, first prints the URL of its request together with the
    header dictionary, where the key and the secret stand in the clear,
    and only then sends the request. *)
Theorem prints_url_and_credentials_before_sending
    (p : M pyobj) (w : World) :
  api_call p ->
  exists (rq : Request) (rest : list event),
    new_events p w
    = EvPrint [PyStr (req_url rq);
               PyDict [("api_key", PyStr (_api_key (self w)));
                       ("api_secret", PyStr (_api_secret (self w)))]]
        :: EvSend (request_count (trace w)) rq :: rest
    /\ stdout (new_events p w)
       = [[PyStr (req_url rq);
           PyDict [("api_key", PyStr (_api_key (self w)));
                   ("api_secret", PyStr (_api_secret (self w)))]]]
    /\ sent_by p w = Some rq.
Proof.
  intros Hp.
  destruct (api_call_dispatch p Hp) as (method & endpoint & params & ->).
  exists (the_request method endpoint params w).
  exists (snd (after_answer (request_count (trace w))
                 (remote w (request_count (trace w))
                    (the_request method endpoint params w)))).
  rewrite dispatch_sent_by, dispatch_new_events. cbv zeta.
  split; [reflexivity |].
  split; [| reflexivity].
  cbn [stdout the_request req_url req_headers]. f_equal.
  destruct (remote w _ _) as [e | r]; cbn [after_answer snd stdout];
    [reflexivity |].
  destruct (reply_status r =? 200); [| reflexivity].
  destruct (reply_json r); reflexivity.
Qed.

Lemma prints_url_and_credentials_before_sending_witness :
  api_call (invoke (Delete_card 7))
  /\ exists (rq : Request) (rest : list event),
       new_events (invoke (Delete_card 7)) world_404
       = EvPrint [PyStr (req_url rq);
                  PyDict [("api_key", PyStr "k"); ("api_secret", PyStr "s")]]
           :: EvSend 0 rq :: rest
       /\ stdout (new_events (invoke (Delete_card 7)) world_404)
          = [[PyStr (req_url rq);
              PyDict [("api_key", PyStr "k"); ("api_secret", PyStr "s")]]]
       /\ sent_by (invoke (Delete_card 7)) world_404 = Some rq.
Proof.
  assert (Hp : api_call (invoke (Delete_card 7))) by constructor.
  split; [exact Hp |].
  exact (prints_url_and_credentials_before_sending _ world_404 Hp).
Defined.

(** What [delete_card(7)] writes and sends when the reply is 404. *)
Example delete_card_events :
  new_events (delete_card 7) world_404
  = [EvPrint [PyStr "https://api.paywhirl.com//delete/card";
              PyDict [("api_key", PyStr "k"); ("api_secret", PyStr "s")]];
     EvSend 0
       (mkRequest POST "https://api.paywhirl.com//delete/card"
          [("api_key", PyStr "k"); ("api_secret", PyStr "s")]
          (PyDict [("id", PyInt 7)]) None None false)].
Proof. reflexivity. Qed.

(** C7.  On the POST path the caller's parameter mapping (the empty
    mapping when none is given) goes out as the [params] of the request,
    the query string; the request carries no body, neither [data] nor
    [json]. *)
Theorem post_params_go_in_query_string
    (endpoint : string) (params : pyobj) (w : World) :
  exists rq : Request,
    sent_by (_post endpoint params) w = Some rq
    /\ req_method rq = POST
    /\ req_params rq = (if is_None params then PyDict [] else params)
    /\ req_data rq = None
    /\ req_json rq = None.
Proof.
  exists (the_request POST endpoint params w).
  split; [exact (dispatch_sent_by POST endpoint params w) |].
  repeat split.
Qed.

(** C8.  [update_subscription] without a quantity sends exactly the
    mapping of [subscription_id] and [plan_id], with no [quantity] key;
    with a quantity it sends the same mapping followed by [quantity]. *)
Theorem update_subscription_params
    (subscription_id plan_id : Z) (w : World) :
  option_map req_params
    (sent_by (update_subscription subscription_id plan_id None) w)
  = Some (PyDict [("subscription_id", PyInt subscription_id);
                  ("plan_id", PyInt plan_id)])
  /\ dict_contains [("subscription_id", PyInt subscription_id);
                    ("plan_id", PyInt plan_id)] "quantity" = false
  /\ forall quantity : Z,
       option_map req_params
         (sent_by (update_subscription subscription_id plan_id
                     (Some quantity)) w)
       = Some (PyDict [("subscription_id", PyInt subscription_id);
                       ("plan_id", PyInt plan_id);
                       ("quantity", PyInt quantity)]).
Proof.
  unfold update_subscription.
  split; [| split; [reflexivity |]]; intros;
    rewrite (dispatch_sent_by POST); reflexivity.
Qed.

Example update_subscription_5_9 :
  option_map req_params (sent_by (update_subscription 5 9 None) world_200)
  = Some (PyDict [("subscription_id", PyInt 5); ("plan_id", PyInt 9)])
  /\ option_map req_params
       (sent_by (update_subscription 5 9 (Some 3)) world_200)
     = Some (PyDict [("subscription_id", PyInt 5); ("plan_id", PyInt 9);
                     ("quantity", PyInt 3)]).
Proof. split; reflexivity. Qed.

(** C9.  A call leaves the client object as it found it, and a call
    repeated with the same reply gives the same result. *)
Theorem calls_keep_client_and_repeat (p : M pyobj) (w : World) :
  api_call p ->
  self (snd (p w)) = self w
  /\ (received p (snd (p w)) = received p w ->
      fst (p (snd (p w))) = fst (p w)).
Proof.
  intros Hp.
  destruct (api_call_dispatch p Hp) as (method & endpoint & params & ->).
  split.
  - rewrite dispatch_run. reflexivity.
  - intros Hrecv.
    rewrite !dispatch_received in Hrecv. injection Hrecv as Hrecv.
    rewrite (dispatch_result method endpoint params (snd _)), Hrecv.
    rewrite (dispatch_result method endpoint params w).
    destruct (remote w _ _) as [e | r]; [reflexivity |].
    cbn [after_answer].
    destruct (reply_status r =? 200); [| reflexivity].
    destruct (reply_json r); reflexivity.
Qed.

Lemma calls_keep_client_and_repeat_witness :
  api_call (invoke (Get_plan 3))
  /\ self (snd (invoke (Get_plan 3) world_200)) = client_ks
  /\ received (invoke (Get_plan 3)) (snd (invoke (Get_plan 3) world_200))
     = received (invoke (Get_plan 3)) world_200
  /\ fst (invoke (Get_plan 3) (snd (invoke (Get_plan 3) world_200)))
     = fst (invoke (Get_plan 3) world_200).
Proof.
  assert (Hp : api_call (invoke (Get_plan 3))) by constructor.
  destruct (calls_keep_client_and_repeat _ world_200 Hp) as [Hself Hsame].
  split; [exact Hp |].
  split; [exact Hself |].
  split; [reflexivity |].
  exact (Hsame eq_refl).
Defined.

(** C10.  When the reply has status 200 and its body does not decode as
    JSON, the call raises the decoder's exception and returns nothing. *)
Theorem ok_with_bad_json_raises
    (p : M pyobj) (w : World) (r : Reply) (e : exn) :
  api_call p ->
  received p w = Some (inr r) ->
  reply_status r = 200 ->
  reply_json r = inl e ->
  fst (p w) = Raised e.
Proof.
  intros Hp Hrecv Hstatus Hjson.
  destruct (api_call_dispatch p Hp) as (method & endpoint & params & ->).
  rewrite dispatch_received in Hrecv. injection Hrecv as Hrecv.
  rewrite dispatch_result, Hrecv. cbn [after_answer].
  rewrite Hstatus, Hjson. reflexivity.
Qed.

Lemma ok_with_bad_json_raises_witness :
  api_call (invoke Get_account)
  /\ received (invoke Get_account) world_html = Some (inr reply_200_html)
  /\ reply_status reply_200_html = 200
  /\ reply_json reply_200_html = inl json_error
  /\ fst (invoke Get_account world_html) = Raised json_error.
Proof.
  assert (Hp : api_call (invoke Get_account)) by constructor.
  assert (Hr : received (invoke Get_account) world_html
               = Some (inr reply_200_html)) by reflexivity.
  split; [exact Hp |].
  split; [exact Hr |].
  split; [reflexivity |].
  split; [reflexivity |].
  exact (ok_with_bad_json_raises _ world_html reply_200_html json_error
           Hp Hr eq_refl eq_refl).
Defined.

(** ** Further properties *)

Lemma api_call_run (p : M pyobj) (w : World) :
  api_call p ->
  exists rq : Request,
    sent_by p w = Some rq
    /\ fst (p w)
       = fst (after_answer (request_count (trace w))
                (remote w (request_count (trace w)) rq))
    /\ new_events p w
       = EvPrint [PyStr (req_url rq); PyDict (req_headers rq)]
           :: EvSend (request_count (trace w)) rq
           :: snd (after_answer (request_count (trace w))
                     (remote w (request_count (trace w)) rq)).
Proof.
  intros Hp.
  destruct (api_call_dispatch p Hp) as (method & endpoint & params & ->).
  exists (the_request method endpoint params w).
  rewrite dispatch_sent_by, dispatch_result, dispatch_new_events.
  repeat split.
Qed.

Lemma received_sent (p : M pyobj) (w : World) (rq : Request) :
  sent_by p w = Some rq ->
  received p w = Some (remote w (request_count (trace w)) rq).
Proof.
  intros H. unfold received. rewrite H. reflexivity.
Qed.

(** X1.  When the transport fails, the exception that [requests] raises
    leaves the call unchanged; the call has printed and sent its request
    and done nothing else. *)
Theorem transport_failure_propagates
    (p : M pyobj) (w : World) (e : exn) :
  api_call p ->
  received p w = Some (inl e) ->
  fst (p w) = Raised e
  /\ exists rq : Request,
       new_events p w
       = [EvPrint [PyStr (req_url rq); PyDict (req_headers rq)];
          EvSend (request_count (trace w)) rq].
Proof.
  intros Hp Hrecv.
  destruct (api_call_run p w Hp) as (rq & Hsent & Hres & Hev).
  rewrite (received_sent p w rq Hsent) in Hrecv. injection Hrecv as Hrecv.
  rewrite Hres, Hev, Hrecv. split; [reflexivity |].
  exists rq. reflexivity.
Qed.

Lemma transport_failure_propagates_witness :
  api_call (invoke (Get_charge 5))
  /\ received (invoke (Get_charge 5))
       (mkWorld client_ks (mock (inl (Exn "ConnectionError" "refused"))) [])
     = Some (inl (Exn "ConnectionError" "refused"))
  /\ fst (invoke (Get_charge 5)
            (mkWorld client_ks
               (mock (inl (Exn "ConnectionError" "refused"))) []))
     = Raised (Exn "ConnectionError" "refused").
Proof.
  assert (Hp : api_call (invoke (Get_charge 5))) by constructor.
  assert (Hr : received (invoke (Get_charge 5))
                 (mkWorld client_ks
                    (mock (inl (Exn "ConnectionError" "refused"))) [])
               = Some (inl (Exn "ConnectionError" "refused")))
    by reflexivity.
  split; [exact Hp |].
  split; [exact Hr |].
  exact (proj1 (transport_failure_propagates _ _ _ Hp Hr)).
Defined.

(** X2.  A call calls the library exactly once, one [requests.get] or
    one [requests.post], whatever the answer: the count of library calls
    grows by one, and the dispatcher repeats nothing.  What the library
    sends on its own while it follows redirects is inside that one call
    and is not counted. *)
Theorem one_request_per_call (p : M pyobj) (w : World) :
  api_call p ->
  length (sent_requests (new_events p w)) = 1%nat
  /\ request_count (trace (snd (p w))) = S (request_count (trace w)).
Proof.
  intros Hp.
  destruct (api_call_dispatch p Hp) as (method & endpoint & params & ->).
  rewrite dispatch_new_events, dispatch_run. cbv zeta. cbn [snd trace].
  rewrite request_count_app.
  destruct (remote w _ _) as [e | r]; cbn [after_answer snd].
  - split; [reflexivity |]. cbn. apply Nat.add_1_r.
  - destruct (reply_status r =? 200).
    + destruct (reply_json r); (split; [reflexivity |]); cbn;
        apply Nat.add_1_r.
    + split; [reflexivity |]. cbn. apply Nat.add_1_r.
Qed.


Lemma append_inj_l (b s1 s2 : string) : b ++ s1 = b ++ s2 -> s1 = s2.
Proof.
  induction b as [| c b IH]; cbn; intros H; [exact H |].
  injection H as H. exact (IH H).
Qed.

Lemma append_empty_r (s : string) : s ++ "" = s.
Proof.
  induction s as [| c s IH]; cbn; [reflexivity | rewrite IH; reflexivity].
Qed.

Lemma string_tail_eq (c : ascii) (s1 s2 : string) :
  String c s1 = String c s2 -> s1 = s2.
Proof. intros H. injection H as H. exact H. Qed.

Lemma str_parse (n : Z) : NilZero.int_of_string (str n) = Some (Z.to_int n).
Proof.
  unfold str. apply NilZero.isi; destruct n; cbn; intros H;
    try discriminate H; injection H as H;
    exact (Unsigned.to_uint_nonnil _ H).
Qed.

Lemma str_inj (a b : Z) : str a = str b -> a = b.
Proof.
  intros H. apply DecimalZ.to_int_inj.
  assert (E : Some (Z.to_int a) = Some (Z.to_int b))
    by (rewrite <- !str_parse, H; reflexivity).
  injection E as E. exact E.
Qed.

Lemma str_nonempty (a : Z) : str a <> "".
Proof.
  intros H. pose proof (str_parse a) as P. rewrite H in P. discriminate P.
Qed.

Lemma get_sent_url (endpoint : string) (params : pyobj) (w : World) :
  option_map req_url (sent_by (_get endpoint params) w)
  = Some (_api_base (self w) ++ "/" ++ endpoint).
Proof. rewrite (dispatch_sent_by GET). reflexivity. Qed.

Lemma post_sent_url (endpoint : string) (params : pyobj) (w : World) :
  option_map req_url (sent_by (_post endpoint params) w)
  = Some (_api_base (self w) ++ "/" ++ endpoint).
Proof. rewrite (dispatch_sent_by POST). reflexivity. Qed.

Ltac expose_urls H :=
  cbn [invoke] in H;
  lazymatch type of H with
  | option_map _ (sent_by ?p1 _) = option_map _ (sent_by ?p2 _) =>
      let h1 := head_of p1 in
      let h2 := head_of p2 in
      unfold h1, h2 in H
  end;
  cbv beta zeta in H;
  rewrite ?get_sent_url, ?post_sent_url in H;
  injection H as H;
  apply append_inj_l in H;
  cbn -[str] in H.

Ltac peel H :=
  repeat lazymatch type of H with
    | String ?c _ = String ?c _ => apply string_tail_eq in H
    end.

Ltac close_route H :=
  first
    [ exact I
    | discriminate H
    | peel H; rewrite ?append_empty_r in H;
      first [ exact (str_inj _ _ H)
            | exfalso; exact (str_nonempty _ H)
            | exfalso; exact (str_nonempty _ (eq_sym H)) ] ].

Lemma same_url_same_route (c1 c2 : call) (w : World) :
  option_map req_url (sent_by (invoke c1) w)
  = option_map req_url (sent_by (invoke c2) w) ->
  same_route c1 c2.
Proof.
  intros H.
  destruct c1; destruct c2; cbn [same_route];
    first [ exact I | expose_urls H; close_route H ].
Qed.

Lemma same_route_same_url (c1 c2 : call) (w : World) :
  same_route c1 c2 ->
  option_map req_url (sent_by (invoke c1) w)
  = option_map req_url (sent_by (invoke c2) w).
Proof.
  destruct c1; destruct c2; cbn [same_route]; intros Hr;
    try contradiction; try subst; cbn [invoke];
    lazymatch goal with
    | |- option_map _ (sent_by ?p1 _) = option_map _ (sent_by ?p2 _) =>
        let h1 := head_of p1 in
        unfold h1
    end;
    cbv beta zeta; rewrite ?get_sent_url, ?post_sent_url; reflexivity.
Qed.

Lemma one_request_per_call_witness :
  api_call (invoke (Get_subscriptions 9))
  /\ length (sent_requests
               (new_events (invoke (Get_subscriptions 9)) world_404))
     = 1%nat
  /\ request_count (trace (snd (invoke (Get_subscriptions 9) world_404)))
     = 1%nat.
Proof.
  assert (Hp : api_call (invoke (Get_subscriptions 9))) by constructor.
  split; [exact Hp |].
  exact (one_request_per_call _ world_404 Hp).
Defined.

(** X3.  Two endpoint invocations on the same client go to the same URL
    exactly when they are the same method with the same identifier in the
    path: no two methods share a path, and distinct identifiers give
    distinct URLs. *)
Theorem same_url_iff_same_route (c1 c2 : call) (w : World) :
  option_map req_url (sent_by (invoke c1) w)
  = option_map req_url (sent_by (invoke c2) w)
  <-> same_route c1 c2.
Proof.
  split; [apply same_url_same_route | apply same_route_same_url].
Qed.

Lemma same_url_iff_same_route_witness :
  (option_map req_url (sent_by (invoke (Get_card 12)) world_200)
   = option_map req_url (sent_by (invoke (Get_card 12)) world_200))
  /\ (option_map req_url (sent_by (invoke (Get_card 12)) world_200)
      <> option_map req_url (sent_by (invoke (Get_cards 12)) world_200))
  /\ (option_map req_url (sent_by (invoke (Get_card 12)) world_200)
      <> option_map req_url (sent_by (invoke (Get_card 13)) world_200)).
Proof.
  split.
  - exact (proj2 (same_url_iff_same_route (Get_card 12) (Get_card 12)
                    world_200) eq_refl).
  - split; intros H.
    + exact (proj1 (same_url_iff_same_route (Get_card 12) (Get_cards 12)
                      world_200) H).
    + pose proof (proj1 (same_url_iff_same_route (Get_card 12) (Get_card 13)
                           world_200) H) as E.
      cbn in E. discriminate E.
Defined.

(** X4.  A dispatcher call that leaves [params] out sends the empty
    mapping, never [None]; parameters that are given are sent as they
    are. *)
Theorem omitted_params_sent_as_empty_dict
    (method : verb) (endpoint : string) (w : World) :
  option_map req_params (sent_by (dispatch method endpoint PyNone) w)
  = Some (PyDict [])
  /\ forall params : pyobj,
       params <> PyNone ->
       option_map req_params (sent_by (dispatch method endpoint params) w)
       = Some params.
Proof.
  split.
  - rewrite dispatch_sent_by. reflexivity.
  - intros params Hp. rewrite dispatch_sent_by.
    cbn [option_map the_request req_params].
    destruct params; cbn [is_None]; try reflexivity.
    contradiction Hp. reflexivity.
Qed.

Lemma omitted_params_sent_as_empty_dict_witness :
  option_map req_params
    (sent_by (dispatch POST "/multiauth" (PyList [PyInt 1])) world_200)
  = Some (PyList [PyInt 1]).
Proof.
  refine (proj2 (omitted_params_sent_as_empty_dict POST "/multiauth"
                   world_200) (PyList [PyInt 1]) _).
  intros H. discriminate H.
Defined.

(** X5.  A method that takes a [data] dict forwards it as the request
    parameters unchanged: no key is added, dropped or checked. *)
Theorem passthrough_data_sent_unchanged
    (c : call) (data : pydict) (w : World) :
  call_data c = Some data ->
  option_map req_params (sent_by (invoke c) w) = Some (PyDict data).
Proof.
  intros H.
  destruct c; cbn [call_data] in H; try discriminate H;
    injection H as ->; cbn [invoke];
    lazymatch goal with
    | |- option_map _ (sent_by ?p _) = _ =>
        let h := head_of p in unfold h
    end;
    first [ rewrite (dispatch_sent_by GET)
          | rewrite (dispatch_sent_by POST) ];
    reflexivity.
Qed.

Lemma passthrough_data_sent_unchanged_witness :
  call_data (Update_customer [("first_name", PyStr "Ada")])
  = Some [("first_name", PyStr "Ada")]
  /\ option_map req_params
       (sent_by (invoke (Update_customer [("first_name", PyStr "Ada")]))
          world_200)
     = Some (PyDict [("first_name", PyStr "Ada")]).
Proof.
  split; [reflexivity |].
  exact (passthrough_data_sent_unchanged
           (Update_customer [("first_name", PyStr "Ada")])
           [("first_name", PyStr "Ada")] world_200 eq_refl).
Defined.

(** X6.  Every endpoint method hands the dispatcher a path that begins
    with ["/"], so the URL of every endpoint invocation has two separators
    after the base URL. *)
Theorem endpoint_urls_have_two_separators (c : call) (w : World) :
  exists rest : string,
    option_map req_url (sent_by (invoke c) w)
    = Some (_api_base (self w) ++ "//" ++ rest).
Proof.
  destruct c; cbn [invoke];
    lazymatch goal with
    | |- exists _, option_map _ (sent_by ?p _) = _ =>
        let h := head_of p in unfold h
    end;
    cbv beta zeta; rewrite ?get_sent_url, ?post_sent_url; cbn -[str];
    eexists; reflexivity.
Qed.

(** X7.  The response of a call is closed exactly when the reply has
    status 200 and its body decodes; after any other reply, and after a
    failed decoding, it is left open. *)
Theorem closed_exactly_after_decoded_ok
    (p : M pyobj) (w : World) (r : Reply) :
  api_call p ->
  received p w = Some (inr r) ->
  released (request_count (trace w)) (new_events p w) = true
  <-> reply_status r = 200 /\ exists v : pyobj, reply_json r = inr v.
Proof.
  intros Hp Hrecv.
  rewrite (released_iff_ok_and_decoded p w r Hp Hrecv).
  rewrite andb_true_iff, Z.eqb_eq.
  split; intros [Hs Hj]; (split; [exact Hs |]).
  - destruct (reply_json r) as [e | v]; [discriminate Hj |].
    exists v. reflexivity.
  - destruct Hj as [v ->]. reflexivity.
Qed.

Lemma closed_exactly_after_decoded_ok_witness :
  api_call (invoke (Get_invoice 8))
  /\ received (invoke (Get_invoice 8)) world_200 = Some (inr reply_200)
  /\ released 0 (new_events (invoke (Get_invoice 8)) world_200) = true.
Proof.
  assert (Hp : api_call (invoke (Get_invoice 8))) by constructor.
  assert (Hr : received (invoke (Get_invoice 8)) world_200
               = Some (inr reply_200)) by reflexivity.
  split; [exact Hp |].
  split; [exact Hr |].
  refine (proj2 (closed_exactly_after_decoded_ok _ world_200 reply_200
                   Hp Hr) _).
  split; [reflexivity |].
  exists (PyDict [("a", PyInt 1)]). reflexivity.
Defined.

(** X8.  The result of a call does not tell success from failure: a 200
    reply whose JSON body is the integer [n] and a reply with status [n]
    give the same result. *)
Theorem result_does_not_tell_status
    (p : M pyobj) (w1 w2 : World) (r1 r2 : Reply) :
  api_call p ->
  received p w1 = Some (inr r1) ->
  reply_status r1 = 200 ->
  reply_json r1 = inr (PyInt (reply_status r2)) ->
  received p w2 = Some (inr r2) ->
  reply_status r2 <> 200 ->
  fst (p w1) = fst (p w2).
Proof.
  intros Hp H1 Hs1 Hj1 H2 Hs2.
  destruct (api_call_run p w1 Hp) as (rq1 & Hsent1 & Hres1 & _).
  destruct (api_call_run p w2 Hp) as (rq2 & Hsent2 & Hres2 & _).
  rewrite (received_sent p w1 rq1 Hsent1) in H1. injection H1 as H1.
  rewrite (received_sent p w2 rq2 Hsent2) in H2. injection H2 as H2.
  rewrite Hres1, Hres2, H1, H2. cbn [after_answer].
  apply Z.eqb_neq in Hs2. rewrite Hs1, Hj1, Hs2. reflexivity.
Qed.

Lemma result_does_not_tell_status_witness :
  fst (invoke Get_stats
         (mkWorld client_ks (mock (inr (mkReply 200 (inr (PyInt 404))))) []))
  = fst (invoke Get_stats world_404).
Proof.
  refine (result_does_not_tell_status (invoke Get_stats)
            (mkWorld client_ks (mock (inr (mkReply 200 (inr (PyInt 404))))) [])
            world_404 (mkReply 200 (inr (PyInt 404))) reply_404
            _ eq_refl eq_refl eq_refl eq_refl _).
  - constructor.
  - cbn. discriminate.
Defined.

(** X9.  A call raises only what it was handed: the exception of the
    transport, or the decoder's exception after a 200 reply. *)
Theorem raises_only_what_it_received
    (p : M pyobj) (w : World) (e : exn) :
  api_call p ->
  fst (p w) = Raised e ->
  received p w = Some (inl e)
  \/ exists r : Reply,
       received p w = Some (inr r)
       /\ reply_status r = 200
       /\ reply_json r = inl e.
Proof.
  intros Hp Hres.
  destruct (api_call_run p w Hp) as (rq & Hsent & Hrun & _).
  rewrite (received_sent p w rq Hsent). rewrite Hrun in Hres.
  destruct (remote w _ rq) as [e' | r]; cbn [after_answer fst] in Hres.
  - left. injection Hres as ->. reflexivity.
  - right. exists r. split; [reflexivity |].
    destruct (reply_status r =? 200) eqn:Hs; [| discriminate Hres].
    apply Z.eqb_eq in Hs. split; [exact Hs |].
    destruct (reply_json r) as [e' | v]; [| discriminate Hres].
    injection Hres as ->. reflexivity.
Qed.

Lemma raises_only_what_it_received_witness :
  api_call (invoke Get_promos)
  /\ fst (invoke Get_promos world_html) = Raised json_error
  /\ (received (invoke Get_promos) world_html = Some (inl json_error)
      \/ exists r : Reply,
           received (invoke Get_promos) world_html = Some (inr r)
           /\ reply_status r = 200
           /\ reply_json r = inl json_error).
Proof.
  assert (Hp : api_call (invoke Get_promos)) by constructor.
  assert (Hr : fst (invoke Get_promos world_html) = Raised json_error)
    by reflexivity.
  split; [exact Hp |].
  split; [exact Hr |].
  exact (raises_only_what_it_received _ world_html json_error Hp Hr).
Defined.

(** X10.  A call returns only the decoded body of a 200 reply, or the
    status code of a reply with another status. *)
Theorem returns_only_body_or_status
    (p : M pyobj) (w : World) (v : pyobj) :
  api_call p ->
  fst (p w) = Returned v ->
  exists r : Reply,
    received p w = Some (inr r)
    /\ ((reply_status r = 200 /\ reply_json r = inr v)
        \/ (reply_status r <> 200 /\ v = PyInt (reply_status r))).
Proof.
  intros Hp Hres.
  destruct (api_call_run p w Hp) as (rq & Hsent & Hrun & _).
  rewrite (received_sent p w rq Hsent). rewrite Hrun in Hres.
  destruct (remote w _ rq) as [e' | r]; cbn [after_answer fst] in Hres;
    [discriminate Hres |].
  exists r. split; [reflexivity |].
  destruct (reply_status r =? 200) eqn:Hs.
  - apply Z.eqb_eq in Hs. left. split; [exact Hs |].
    destruct (reply_json r) as [e' | v']; [discriminate Hres |].
    injection Hres as ->. reflexivity.
  - apply Z.eqb_neq in Hs. right. split; [exact Hs |].
    injection Hres as <-. reflexivity.
Qed.

Lemma returns_only_body_or_status_witness :
  api_call (invoke (Get_tax_rule 2))
  /\ fst (invoke (Get_tax_rule 2) world_404) = Returned (PyInt 404)
  /\ exists r : Reply,
       received (invoke (Get_tax_rule 2)) world_404 = Some (inr r)
       /\ ((reply_status r = 200 /\ reply_json r = inr (PyInt 404))
           \/ (reply_status r <> 200 /\ PyInt 404 = PyInt (reply_status r))).
Proof.
  assert (Hp : api_call (invoke (Get_tax_rule 2))) by constructor.
  assert (Hr : fst (invoke (Get_tax_rule 2) world_404) = Returned (PyInt 404))
    by reflexivity.
  split; [exact Hp |].
  split; [exact Hr |].
  exact (returns_only_body_or_status _ world_404 (PyInt 404) Hp Hr).
Defined.

(** X11.  After a 200 reply whose body decodes, a call has done exactly
    four things, in this order: print, send, decode the body, close the
    response; decoding and closing act on the response of its own
    request. *)
Theorem success_events_in_order
    (p : M pyobj) (w : World) (r : Reply) (v : pyobj) :
  api_call p ->
  received p w = Some (inr r) ->
  reply_status r = 200 ->
  reply_json r = inr v ->
  exists rq : Request,
    sent_by p w = Some rq
    /\ new_events p w
       = [EvPrint [PyStr (req_url rq); PyDict (req_headers rq)];
          EvSend (request_count (trace w)) rq;
          EvJson (request_count (trace w));
          EvClose (request_count (trace w))].
Proof.
  intros Hp Hrecv Hs Hj.
  destruct (api_call_run p w Hp) as (rq & Hsent & _ & Hev).
  rewrite (received_sent p w rq Hsent) in Hrecv. injection Hrecv as Hrecv.
  exists rq. split; [exact Hsent |].
  rewrite Hev, Hrecv. cbn [after_answer]. rewrite Hs, Hj. reflexivity.
Qed.

Lemma success_events_in_order_witness :
  api_call (invoke Get_gateways)
  /\ received (invoke Get_gateways) world_200 = Some (inr reply_200)
  /\ exists rq : Request,
       sent_by (invoke Get_gateways) world_200 = Some rq
       /\ new_events (invoke Get_gateways) world_200
          = [EvPrint [PyStr (req_url rq); PyDict (req_headers rq)];
             EvSend 0 rq; EvJson 0; EvClose 0].
Proof.
  assert (Hp : api_call (invoke Get_gateways)) by constructor.
  assert (Hr : received (invoke Get_gateways) world_200
               = Some (inr reply_200)) by reflexivity.
  split; [exact Hp |].
  split; [exact Hr |].
  exact (success_events_in_order _ world_200 reply_200 _ Hp Hr
           eq_refl eq_refl).
Defined.

(** X12.  The request of a call is fixed by the client object and the
    arguments alone: neither earlier calls nor earlier replies change
    it. *)
Theorem request_depends_only_on_client
    (p : M pyobj) (w w' : World) :
  api_call p ->
  self w = self w' ->
  sent_by p w = sent_by p w'.
Proof.
  intros Hp Hself.
  destruct (api_call_dispatch p Hp) as (method & endpoint & params & ->).
  rewrite !dispatch_sent_by. unfold the_request. rewrite Hself.
  reflexivity.
Qed.

Lemma request_depends_only_on_client_witness :
  api_call (invoke (Delete_promo 4))
  /\ self world_200 = self (snd (invoke Get_account world_404))
  /\ sent_by (invoke (Delete_promo 4)) world_200
     = sent_by (invoke (Delete_promo 4))
         (snd (invoke Get_account world_404)).
Proof.
  assert (Hp : api_call (invoke (Delete_promo 4))) by constructor.
  assert (Hs : self world_200 = self (snd (invoke Get_account world_404)))
    by reflexivity.
  split; [exact Hp |].
  split; [exact Hs |].
  exact (request_depends_only_on_client _ world_200 _ Hp Hs).
Defined.
